(** * Tendercare rota management: roster engine and shift storage

    A shallow embedding of
    - [client/src/lib/roster-utils.ts] (eligibility, default assignment,
      shift hours, roster generation, staff-hours summary),
    - the [diffs] computation of [client/src/components/roster-comparison.tsx],
    - [MemStorage.updateShift] and the shift / swap-request operations of
      [DatabaseStorage] (server storage),
    together with the properties the specification states about them. *)

From Stdlib Require Import ZArith Lia Ascii String DecimalString.
From stdpp Require Import gmap strings list fin_maps.

Local Open Scope Z_scope.

(** ** Shared schema ([shared/schema.ts]) *)

Inductive StaffMember := Ashley | Peninah | Joflix | Locum.

Inductive ShiftType := Day | Night | FullDay.   (* "Day" | "Night" | "24h" *)

Definition STAFF_MEMBERS : list StaffMember := [Ashley; Peninah; Joflix; Locum].

#[global] Instance StaffMember_eq_dec : EqDecision StaffMember.
Proof. solve_decision. Defined.

#[global] Instance ShiftType_eq_dec : EqDecision ShiftType.
Proof. solve_decision. Defined.

Definition staff_code (s : StaffMember) : nat :=
  match s with Ashley => 0 | Peninah => 1 | Joflix => 2 | Locum => 3 end%nat.

Definition staff_of_code (n : nat) : option StaffMember :=
  match n with
  | 0 => Some Ashley | 1 => Some Peninah | 2 => Some Joflix | 3 => Some Locum
  | _ => None
  end%nat.

#[global] Instance StaffMember_countable : Countable StaffMember.
Proof.
  refine (inj_countable staff_code staff_of_code _).
  intros []; reflexivity.
Defined.

Definition staffName (s : StaffMember) : string :=
  match s with
  | Ashley => "Ashley" | Peninah => "Peninah" | Joflix => "Joflix" | Locum => "Locum"
  end.

Definition shiftTypeName (t : ShiftType) : string :=
  match t with Day => "Day" | Night => "Night" | FullDay => "24h" end.

(** [RosterShift] of the schema.  [hours] is a JS number; the shifts table
    stores it in an [integer] column and the generator only produces 12 and
    24, so it is an integer here. *)
Record RosterShift := mkShift {
  shift_id : string;
  shift_date : string;
  shift_weekday : string;
  shiftType : ShiftType;
  shiftLabel : string;
  hours : Z;
  assigned : option StaffMember;
  allowedStaff : list StaffMember
}.

Record StaffHoursSummary := mkSummary {
  name : StaffMember;
  totalHours : Z;
  shiftCount : Z
}.

(** ** Calendar dates

    A JS [Date] seen in local time: the number of the calendar day (days
    since 1970-01-01, a Thursday) and the time within that day in
    milliseconds.  The functions below are the [date-fns] functions the
    generator imports, written over this representation. *)
Record Date := mkDate { dayNumber : Z; timeOfDay : Z }.

(** [getDay]: 0 = Sunday ... 6 = Saturday. *)
Definition getDay (d : Date) : Z := (dayNumber d + 4) mod 7.

(** [addDays]: [setDate(getDate() + amount)], the time of day is kept. *)
Definition addDays (d : Date) (amount : Z) : Date :=
  mkDate (dayNumber d + amount) (timeOfDay d).

(** [startOfWeek(date, { weekStartsOn })]:
    [diff = (day < weekStartsOn ? 7 : 0) + day - weekStartsOn], the date is
    moved back by [diff] days and the time is set to midnight. *)
Definition startOfWeek (d : Date) (weekStartsOn : Z) : Date :=
  let day := getDay d in
  let diff := (if day <? weekStartsOn then 7 else 0) + day - weekStartsOn in
  mkDate (dayNumber d - diff) 0.

(** Calendar fields of a day number (proleptic Gregorian calendar). *)
Definition civil_from_days (n : Z) : Z * Z * Z :=
  let z := n + 719468 in
  let era := z / 146097 in
  let doe := z - era * 146097 in
  let yoe := (doe - doe / 1460 + doe / 36524 - doe / 146096) / 365 in
  let y := yoe + era * 400 in
  let doy := doe - (365 * yoe + yoe / 4 - yoe / 100) in
  let mp := (5 * doy + 2) / 153 in
  let d := doy - (153 * mp + 2) / 5 + 1 in
  let m := if mp <? 10 then mp + 3 else mp - 9 in
  (if m <=? 2 then y + 1 else y, m, d).

Definition days_from_civil (y m d : Z) : Z :=
  let y' := if m <=? 2 then y - 1 else y in
  let era := y' / 400 in
  let yoe := y' - era * 400 in
  let doy := (153 * (if 2 <? m then m - 3 else m + 9) + 2) / 5 + d - 1 in
  let doe := yoe * 365 + yoe / 4 - yoe / 100 + doy in
  era * 146097 + doe - 719468.

(** [new Date(y, m - 1, d)]: local midnight of a calendar date. *)
Definition localDate (y m d : Z) : Date := mkDate (days_from_civil y m d) 0.

(** [Number.prototype.toString] on a non-negative integer. *)
Definition numberToString (n : Z) : string :=
  NilZero.string_of_uint (N.to_uint (Z.to_N n)).

Fixpoint zeros (n : nat) : string :=
  match n with O => EmptyString | S k => String "0"%char (zeros k) end.

(** [addLeadingZeros(number, targetLength)] of date-fns, for [number >= 0]. *)
Definition addLeadingZeros (n : Z) (targetLength : nat) : string :=
  let s := numberToString n in
  zeros (targetLength - String.length s) +:+ s.

(** [format(date, "yyyy-MM-dd")]. *)
Definition format_yyyy_MM_dd (d : Date) : string :=
  let '(y, m, dd) := civil_from_days (dayNumber d) in
  let year := if 0 <? y then y else 1 - y in
  addLeadingZeros year 4 +:+ "-" +:+ addLeadingZeros m 2 +:+ "-" +:+ addLeadingZeros dd 2.

(** [format(date, "EEE")]. *)
Definition format_EEE (d : Date) : string :=
  match getDay d with
  | 0 => "Sun" | 1 => "Mon" | 2 => "Tue" | 3 => "Wed"
  | 4 => "Thu" | 5 => "Fri" | _ => "Sat"
  end.

(** ** The resolvers ([roster-utils.ts]) *)

Definition getAllowedStaff (date : Date) (shiftType : ShiftType) : list StaffMember :=
  let dayOfWeek := getDay date in
  if (dayOfWeek =? 6) && bool_decide (shiftType = Day) then [Joflix]
  else if (dayOfWeek =? 6) && bool_decide (shiftType = Night) then [Ashley; Peninah; Locum]
  else if dayOfWeek =? 0 then [Ashley; Peninah; Locum]
  else [Ashley; Peninah; Joflix; Locum].

Definition getDefaultAssignment (date : Date) (shiftType : ShiftType) (weekIndex : Z)
  : option StaffMember :=
  let dayOfWeek := getDay date in
  if (dayOfWeek =? 6) && bool_decide (shiftType = Day) then Some Joflix
  else if (dayOfWeek =? 6) && bool_decide (shiftType = Night) then
    if 3 <=? weekIndex then Some Locum
    else if Z.rem weekIndex 2 =? 0 then Some Ashley else Some Peninah
  else if (dayOfWeek =? 0) && bool_decide (shiftType = Day) then
    if Z.rem weekIndex 2 =? 0 then Some Ashley else Some Peninah
  else if (dayOfWeek =? 0) && bool_decide (shiftType = Night) then
    if Z.rem weekIndex 2 =? 0 then Some Peninah else Some Ashley
  else if dayOfWeek =? 1 then Some Ashley
  else if dayOfWeek =? 2 then Some Peninah
  else if dayOfWeek =? 3 then Some Joflix
  else if dayOfWeek =? 4 then Some Joflix
  else if dayOfWeek =? 5 then
    if 3 <=? weekIndex then Some Locum else Some Peninah
  else None.

Definition getShiftHours (dayOfWeek : Z) (shiftType : ShiftType) : Z :=
  if (1 <=? dayOfWeek) && (dayOfWeek <=? 5) then 24
  else if bool_decide (shiftType = Day) then 12
  else if bool_decide (shiftType = Night) then 12
  else 24.

(** ** The roster generator *)

(** One iteration of the [for] loop of [generateRosterShifts]: the shifts
    pushed for day offset [i]. *)
Definition shiftsOfDay (adjustedStart : Date) (i : Z) : list RosterShift :=
  let date := addDays adjustedStart i in
  let dayOfWeek := getDay date in
  let weekIndex := i / 7 in
  let dateStr := format_yyyy_MM_dd date in
  let weekday := format_EEE date in
  if (dayOfWeek =? 6) || (dayOfWeek =? 0) then
    let dayHours := getShiftHours dayOfWeek Day in
    let dayAllowed := getAllowedStaff date Day in
    let dayAssigned := getDefaultAssignment date Day weekIndex in
    let nightHours := getShiftHours dayOfWeek Night in
    let nightAllowed := getAllowedStaff date Night in
    let nightAssigned := getDefaultAssignment date Night weekIndex in
    [ mkShift (dateStr +:+ "-day") dateStr weekday Day
        ("Day " +:+ numberToString dayHours +:+ "h") dayHours dayAssigned dayAllowed;
      mkShift (dateStr +:+ "-night") dateStr weekday Night
        ("Night " +:+ numberToString nightHours +:+ "h") nightHours nightAssigned nightAllowed ]
  else
    let hours := getShiftHours dayOfWeek FullDay in
    let allowed := getAllowedStaff date FullDay in
    let assigned := getDefaultAssignment date FullDay weekIndex in
    [ mkShift (dateStr +:+ "-24h") dateStr weekday FullDay "24h" hours assigned allowed ].

(** [for (let i = 0; i < totalDays; i++) { ... shifts.push(...) ... }] *)
Definition generateRosterShifts (startDate : Date) (weeks : Z) : list RosterShift :=
  let totalDays := weeks * 7 in
  let adjustedStart := startOfWeek startDate 1 in
  fold_left (fun shifts i => shifts ++ shiftsOfDay adjustedStart i) (seqZ 0 totalDays) [].

(** ** The hours aggregator ([calculateStaffHours]) *)

(** The values of [hoursMap]: [{ hours, count }]. *)
Record Tally := mkTally { tally_hours : Z; tally_count : Z }.

(** [STAFF_MEMBERS.forEach(staff => hoursMap.set(staff, { hours: 0, count: 0 }))] *)
Definition initialHoursMap : gmap StaffMember Tally :=
  fold_left (fun hoursMap staff => <[staff := mkTally 0 0]> hoursMap) STAFF_MEMBERS ∅.

(** The body of [shifts.forEach].  [hoursMap.get(...)!] on a missing key
    gives [undefined], whose [.hours] raises a TypeError: that is [None]. *)
Definition tallyShift (hoursMap : gmap StaffMember Tally) (shift : RosterShift)
  : option (gmap StaffMember Tally) :=
  match assigned shift with
  | Some staff =>
      current ← hoursMap !! staff;
      Some (<[staff := mkTally (tally_hours current + hours shift) (tally_count current + 1)]> hoursMap)
  | None => Some hoursMap
  end.

Definition tallyShifts (shifts : list RosterShift) (hoursMap : gmap StaffMember Tally)
  : option (gmap StaffMember Tally) :=
  fold_left (fun acc shift => acc ≫= fun m => tallyShift m shift) shifts (Some hoursMap).

Definition summaryOf (hoursMap : gmap StaffMember Tally) (name : StaffMember)
  : option StaffHoursSummary :=
  entry ← hoursMap !! name;
  Some (mkSummary name (tally_hours entry) (tally_count entry)).

Definition calculateStaffHours (shifts : list RosterShift) : option (list StaffHoursSummary) :=
  hoursMap ← tallyShifts shifts initialHoursMap;
  mapM (summaryOf hoursMap) STAFF_MEMBERS.

(** Sum of [hours] over the shifts that have an assignee. *)
Definition assignedHours (shifts : list RosterShift) : Z :=
  foldr Z.add 0 (map hours (filter (fun s => is_Some (assigned s)) shifts)).

Definition sumTotalHours (summary : list StaffHoursSummary) : Z :=
  foldr Z.add 0 (map totalHours summary).

(** ** The roster differ ([diffs] of [RosterComparison]) *)

Record ShiftDiff := mkDiff {
  diff_shiftId : string;
  diff_date : string;
  diff_weekday : string;
  diff_shiftType : string;
  leftAssigned : option StaffMember;
  rightAssigned : option StaffMember;
  isDifferent : bool
}.

(** A JS [Map<string, V>]: entries in insertion order; [set] on a key that
    is present replaces the value in place. *)
Fixpoint map_set {V} (m : list (string * V)) (k : string) (v : V) : list (string * V) :=
  match m with
  | [] => [(k, v)]
  | (k', v') :: rest =>
      if decide (k' = k) then (k, v) :: rest else (k', v') :: map_set rest k v
  end.

Fixpoint map_get {V} (m : list (string * V)) (k : string) : option V :=
  match m with
  | [] => None
  | (k', v') :: rest => if decide (k' = k) then Some v' else map_get rest k
  end.

Definition map_keys {V} (m : list (string * V)) : list string := m.*1.

(** [new Set(array)]: the elements in order of first occurrence. *)
Definition set_of_array (keys : list string) : list string :=
  fold_left (fun acc k => if decide (k ∈ acc) then acc else acc ++ [k]) keys [].

Definition shiftKey (shift : RosterShift) : string :=
  shift_date shift +:+ "-" +:+ shiftTypeName (shiftType shift).

Definition shiftsMap (shifts : list RosterShift) : list (string * RosterShift) :=
  fold_left (fun m shift => map_set m (shiftKey shift) shift) shifts [].

(** The body of [allKeys.forEach]: the entry pushed for [key], if any. *)
Definition diffOfKey (leftShiftsMap rightShiftsMap : list (string * RosterShift))
    (key : string) : list ShiftDiff :=
  let leftShift := map_get leftShiftsMap key in
  let rightShift := map_get rightShiftsMap key in
  let leftAssigned := leftShift ≫= assigned in
  let rightAssigned := rightShift ≫= assigned in
  let isDifferent := negb (bool_decide (leftAssigned = rightAssigned)) in
  match (match leftShift with Some s => Some s | None => rightShift end) with
  | Some shift =>
      [ mkDiff (shift_id shift) (shift_date shift) (shift_weekday shift)
          (shiftTypeName (shiftType shift)) leftAssigned rightAssigned isDifferent ]
  | None => []
  end.

Section Differ.
(** [String.prototype.localeCompare] depends on the host's collation; it
    is a parameter of the differ. *)
Variable localeCompare : string → string → Z.

(** [(a, b) => a.date.localeCompare(b.date) || a.shiftType.localeCompare(b.shiftType)] *)
Definition compareDiffs (a b : ShiftDiff) : Z :=
  let c := localeCompare (diff_date a) (diff_date b) in
  if c =? 0 then localeCompare (diff_shiftType a) (diff_shiftType b) else c.

(** [Array.prototype.sort] is stable; a stable insertion sort. *)
Fixpoint sort_insert (x : ShiftDiff) (l : list ShiftDiff) : list ShiftDiff :=
  match l with
  | [] => [x]
  | y :: l' => if compareDiffs x y <=? 0 then x :: y :: l' else y :: sort_insert x l'
  end.

Definition sort (l : list ShiftDiff) : list ShiftDiff := foldr sort_insert [] l.

(** [diffs] for two loaded rosters, given by their shift lists. *)
Definition diffs (leftShifts rightShifts : list RosterShift) : list ShiftDiff :=
  let leftShiftsMap := shiftsMap leftShifts in
  let rightShiftsMap := shiftsMap rightShifts in
  let allKeys := set_of_array (map_keys leftShiftsMap ++ map_keys rightShiftsMap) in
  let results :=
    fold_left (fun results key => results ++ diffOfKey leftShiftsMap rightShiftsMap key)
      allKeys [] in
  sort results.

(** [changedCount]: [diffs.filter((d) => d.isDifferent).length] *)
Definition changedCount (ds : list ShiftDiff) : nat :=
  length (filter (fun d => isDifferent d = true) ds).
End Differ.

(** ** Storage *)

(** The result of a storage call: a returned value or a thrown [Error]
    with its message. *)
Inductive outcome (A : Type) :=
  | Returned (value : A)
  | Thrown (message : string).
Arguments Returned {A} value.
Arguments Thrown {A} message.

(** [{ ...shift, assigned }] *)
Definition withAssigned (shift : RosterShift) (a : option StaffMember) : RosterShift :=
  mkShift (shift_id shift) (shift_date shift) (shift_weekday shift) (shiftType shift)
    (shiftLabel shift) (hours shift) a (allowedStaff shift).

(** [allowedStaff.includes(staff)] *)
Definition includes (allowed : list StaffMember) (staff : StaffMember) : bool :=
  bool_decide (staff ∈ allowed).

Definition notAllowedMessage (staff : StaffMember) : string :=
  "Staff member " +:+ staffName staff +:+ " is not allowed for this shift".

(** [String.prototype.includes] *)
Fixpoint str_includes (s sub : string) : bool :=
  String.prefix sub s ||
  match s with
  | EmptyString => false
  | String _ rest => str_includes rest sub
  end.

Module MemStorage.
Record Roster := mkRoster {
  roster_id : string;
  startDate : string;
  weeks : Z;
  shifts : list RosterShift
}.

(** [this.roster] *)
Definition state := option Roster.

(** The shift the storage holds under [shiftId]: the first one of the
    roster with that id, as [findIndex] finds it. *)
Definition getShift (this : state) (shiftId : string) : option RosterShift :=
  roster ← this;
  snd <$> list_find (fun s => shift_id s = shiftId) (shifts roster).

Definition updateShift (this : state) (shiftId : string) (assignee : option StaffMember)
  : state * outcome (option RosterShift) :=
  match this with
  | None => (this, Returned None)
  | Some roster =>
      match list_find (fun s => shift_id s = shiftId) (shifts roster) with
      | None => (this, Returned None)
      | Some (shiftIndex, shift) =>
          let updatedShift := withAssigned shift assignee in
          let stored :=
            (Some (mkRoster (roster_id roster) (startDate roster) (weeks roster)
                     (<[shiftIndex := updatedShift]> (shifts roster))),
             Returned (Some updatedShift)) in
          match assignee with
          | Some staff =>
              if negb (includes (allowedStaff shift) staff)
              then (this, Thrown (notAllowedMessage staff))
              else stored
          | None => stored
          end
      end
  end.
End MemStorage.

Module DatabaseStorage.
(** Rows of the tables of [shared/schema.ts].  Each table has [id] as its
    primary key: a table is a finite map from [id] to the other columns.
    Timestamps are numbers; the notifications table plays no part in the
    operations below and is left out. *)
Record DbRoster := mkDbRoster {
  roster_name : string;
  roster_startDate : string;
  roster_endDate : string;
  roster_weeks : Z;
  roster_createdAt : Z;
  roster_updatedAt : Z;
  roster_isActive : bool;
  roster_version : Z
}.

Record DbShift := mkDbShift {
  rosterId : string;
  db_date : string;
  db_weekday : string;
  db_shiftType : ShiftType;
  db_shiftLabel : string;
  db_hours : Z;
  db_assigned : option StaffMember;
  db_allowedStaff : list StaffMember
}.

Inductive SwapStatus := pending | approved | rejected.

(** The [status] argument of [respondToSwapRequest]: "approved" | "rejected". *)
Inductive SwapResponse := respond_approved | respond_rejected.

Definition statusOfResponse (r : SwapResponse) : SwapStatus :=
  match r with respond_approved => approved | respond_rejected => rejected end.

Record DbSwapRequest := mkDbSwapRequest {
  shiftId : string;
  fromStaff : StaffMember;
  toStaff : StaffMember;
  status : SwapStatus;
  reason : option string;
  createdAt : Z;
  respondedAt : option Z
}.

Record SwapRequestWithDetails := mkSwapDetails {
  swap_id : string;
  swap_shiftId : string;
  swap_shiftDate : string;
  swap_shiftType : string;
  swap_fromStaff : StaffMember;
  swap_toStaff : StaffMember;
  swap_status : SwapStatus;
  swap_reason : option string;
  swap_createdAt : Z;
  swap_respondedAt : option Z
}.

Record Database := mkDatabase {
  rosters : gmap string DbRoster;
  shifts : gmap string DbShift;
  swapRequests : gmap string DbSwapRequest
}.

Definition dbShiftToRosterShift (id : string) (dbShift : DbShift) : RosterShift :=
  mkShift id (db_date dbShift) (db_weekday dbShift) (db_shiftType dbShift)
    (db_shiftLabel dbShift) (db_hours dbShift) (db_assigned dbShift)
    (db_allowedStaff dbShift).

(** [.set({ assigned })] on a shifts row *)
Definition setAssigned (a : option StaffMember) (row : DbShift) : DbShift :=
  mkDbShift (rosterId row) (db_date row) (db_weekday row) (db_shiftType row)
    (db_shiftLabel row) (db_hours row) a (db_allowedStaff row).

(** [.set({ updatedAt })] on a rosters row *)
Definition setUpdatedAt (t : Z) (row : DbRoster) : DbRoster :=
  mkDbRoster (roster_name row) (roster_startDate row) (roster_endDate row)
    (roster_weeks row) (roster_createdAt row) t (roster_isActive row)
    (roster_version row).

(** [.set({ status, respondedAt: now })] on a swap_requests row *)
Definition setResponse (s : SwapStatus) (now : Z) (row : DbSwapRequest) : DbSwapRequest :=
  mkDbSwapRequest (shiftId row) (fromStaff row) (toStaff row) s (reason row)
    (createdAt row) (Some now).

(** [updateShift]; [now] is the value of [new Date()]. *)
Definition updateShift (db : Database) (now : Z) (id : string)
    (assignee : option StaffMember) : Database * outcome (option RosterShift) :=
  match shifts db !! id with
  | None => (db, Returned None)
  | Some shift =>
      let allowed := db_allowedStaff shift in
      let rejectedStaff :=
        match assignee with
        | Some staff => if negb (includes allowed staff) then Some staff else None
        | None => None
        end in
      match rejectedStaff with
      | Some staff => (db, Thrown (notAllowedMessage staff))
      | None =>
          let shifts' := alter (setAssigned assignee) id (shifts db) in
          let rosters' := alter (setUpdatedAt now) (rosterId shift) (rosters db) in
          let db' := mkDatabase rosters' shifts' (swapRequests db) in
          match shifts' !! id with
          | Some updatedShift => (db', Returned (Some (dbShiftToRosterShift id updatedShift)))
          | None => (db', Thrown "TypeError: Cannot read properties of undefined")
          end
      end
  end.

(** [createSwapRequest]; [requestId] is the value of [randomUUID()], which
    the insert needs to be a fresh key, and [now] the current time. *)
Definition createSwapRequest (db : Database) (requestId : string) (now : Z)
    (id : string) (from to : StaffMember) (why : option string)
  : Database * outcome SwapRequestWithDetails :=
  match shifts db !! id with
  | None => (db, Thrown "Shift not found")
  | Some shift =>
      let why' := match why with Some EmptyString => None | _ => why end in
      match swapRequests db !! requestId with
      | Some _ => (db, Thrown "duplicate key value violates unique constraint")
      | None =>
          let row := mkDbSwapRequest id from to pending why' now None in
          (mkDatabase (rosters db) (shifts db) (<[requestId := row]> (swapRequests db)),
           Returned (mkSwapDetails requestId id (db_date shift)
                       (shiftTypeName (db_shiftType shift)) from to pending why' now None))
      end
  end.

(** [respondToSwapRequest] *)
Definition respondToSwapRequest (db : Database) (now : Z) (requestId : string)
    (response : SwapResponse) : Database * outcome (option SwapRequestWithDetails) :=
  match swapRequests db !! requestId with
  | None => (db, Returned None)
  | Some request =>
      let swapRequests' :=
        alter (setResponse (statusOfResponse response) now) requestId (swapRequests db) in
      let shifts' :=
        match response with
        | respond_approved =>
            alter (setAssigned (Some (toStaff request))) (shiftId request) (shifts db)
        | respond_rejected => shifts db
        end in
      let shift := shifts' !! shiftId request in
      (mkDatabase (rosters db) shifts' swapRequests',
       Returned (Some (mkSwapDetails requestId (shiftId request)
                         (from_option db_date "" shift)
                         (from_option (fun s => shiftTypeName (db_shiftType s)) "" shift)
                         (fromStaff request) (toStaff request) (statusOfResponse response)
                         (reason request)
                         (createdAt request) (Some now))))
  end.

(** The stored shift with a given id, as the API returns it. *)
Definition storedShift (db : Database) (id : string) : option RosterShift :=
  dbShiftToRosterShift id <$> shifts db !! id.
End DatabaseStorage.

(** The data-model invariant of a shift: an assignee, if any, is eligible. *)
Definition assigneeEligible (shift : RosterShift) : Prop :=
  ∀ staff, assigned shift = Some staff → staff ∈ allowedStaff shift.

(** ** Vocabulary of the properties *)

(** The weekday label and category of a shift. *)
Definition slotOf (s : RosterShift) : string * ShiftType := (shift_weekday s, shiftType s).

(** The nine slots of a week, in the order the generator emits them. *)
Definition weekSlots : list (string * ShiftType) :=
  [("Mon", FullDay); ("Tue", FullDay); ("Wed", FullDay); ("Thu", FullDay); ("Fri", FullDay);
   ("Sat", Day); ("Sat", Night); ("Sun", Day); ("Sun", Night)].

Definition slotIs (wd : string) (t : ShiftType) (slot : string * ShiftType) : bool :=
  bool_decide (slot.1 = wd) && bool_decide (slot.2 = t).

(** A full-day shift on Monday to Friday. *)
Definition isWeekdaySlot (slot : string * ShiftType) : bool :=
  bool_decide (slot.1 ∈ ["Mon"; "Tue"; "Wed"; "Thu"; "Fri"]) && bool_decide (slot.2 = FullDay).

(** A Day or Night shift on Saturday or Sunday. *)
Definition isWeekendSlot (slot : string * ShiftType) : bool :=
  bool_decide (slot.1 ∈ ["Sat"; "Sun"]) && bool_decide (slot.2 ∈ [Day; Night]).

Definition countShifts (q : string * ShiftType → bool) (shifts : list RosterShift) : Z :=
  Z.of_nat (length (List.filter (fun s => q (slotOf s)) shifts)).

(** The slots emitted for a day, by its day of the week. *)
Definition daySlots (g : Z) : list (string * ShiftType) :=
  match g with
  | 0 => [("Sun", Day); ("Sun", Night)]
  | 1 => [("Mon", FullDay)] | 2 => [("Tue", FullDay)] | 3 => [("Wed", FullDay)]
  | 4 => [("Thu", FullDay)] | 5 => [("Fri", FullDay)]
  | _ => [("Sat", Day); ("Sat", Night)]
  end.

(** Total of the [hours] held by [hoursMap] for the four staff members. *)
Definition mapTotal (hoursMap : gmap StaffMember Tally) : Z :=
  foldr Z.add 0 (map (fun n => from_option tally_hours 0 (hoursMap !! n)) STAFF_MEMBERS).

Definition contribution (shift : RosterShift) : Z :=
  match assigned shift with Some _ => hours shift | None => 0 end.

(** Every staff member has an entry. *)
Definition complete (hoursMap : gmap StaffMember Tally) : Prop :=
  ∀ staff, is_Some (hoursMap !! staff).

(** What the specification asks of an implementation of [IStorage] when a
    shift is reassigned by hand; [getShift] reads the shift stored under an
    id. *)
Section StorageContract.
Context {S : Type}.
Variable getShift : S → string → option RosterShift.
Variable updateShift : S → string → option StaffMember → S * outcome (option RosterShift).

(** A proposed staff member is refused, with the state untouched, exactly
    when they are not in the shift's [allowedStaff]; otherwise they become
    the assignee and nothing else changes. *)
Definition validates_assignment : Prop :=
  ∀ st id shift staff,
    getShift st id = Some shift →
    ((∃ message, (updateShift st id (Some staff)).2 = Thrown message) ↔
     staff ∉ allowedStaff shift) ∧
    (staff ∉ allowedStaff shift →
     updateShift st id (Some staff) = (st, Thrown (notAllowedMessage staff))) ∧
    (staff ∈ allowedStaff shift →
     ∃ st', updateShift st id (Some staff) =
              (st', Returned (Some (withAssigned shift (Some staff)))) ∧
            getShift st' id = Some (withAssigned shift (Some staff)) ∧
            ∀ other, other ≠ id → getShift st' other = getShift st other).

(** Unassigning always succeeds. *)
Definition allows_unassignment : Prop :=
  ∀ st id shift,
    getShift st id = Some shift →
    ∃ st', updateShift st id None = (st', Returned (Some (withAssigned shift None))) ∧
           getShift st' id = Some (withAssigned shift None) ∧
           ∀ other, other ≠ id → getShift st' other = getShift st other.
End StorageContract.

(** ** A stored roster to evaluate the operations on *)

(** The row [saveRoster] inserts into the shifts table for a shift. *)
Definition shiftRow (rosterId : string) (shift : RosterShift) : DatabaseStorage.DbShift :=
  DatabaseStorage.mkDbShift rosterId (shift_date shift) (shift_weekday shift)
    (shiftType shift) (shiftLabel shift) (hours shift) (assigned shift) (allowedStaff shift).

Definition insertShifts (rosterId : string) (shifts : list RosterShift)
    (table : gmap string DatabaseStorage.DbShift) : gmap string DatabaseStorage.DbShift :=
  fold_left (fun t shift => <[shift_id shift := shiftRow rosterId shift]> t) shifts table.

Definition juneShifts : list RosterShift := generateRosterShifts (localDate 2024 6 3) 1.

(** The database after the roster of the week of 2024-06-03 was saved. *)
Definition juneDatabase : DatabaseStorage.Database :=
  DatabaseStorage.mkDatabase
    {[ "roster-1" := DatabaseStorage.mkDbRoster "June" "2024-06-03" "2024-06-09" 1 0 0 true 1 ]}
    (insertShifts "roster-1" juneShifts ∅)
    ∅.

Definition juneRoster : MemStorage.state :=
  Some (MemStorage.mkRoster "roster-1" "2024-06-03" 1 juneShifts).

(** The locked Saturday Day shift of that week. *)
Definition saturdayDay : RosterShift :=
  mkShift "2024-06-08-day" "2024-06-08" "Sat" Day "Day 12h" 12 (Some Joflix) [Joflix].

Definition saturdayNight : RosterShift :=
  mkShift "2024-06-08-night" "2024-06-08" "Sat" Night "Night 12h" 12 (Some Ashley)
    [Ashley; Peninah; Locum].

(** A collation to evaluate the differ with: comparison by code units. *)
Definition codeUnitCompare (a b : string) : Z :=
  match String.compare a b with Lt => -1 | Eq => 0 | Gt => 1 end.

(** The June roster with Tuesday handed to the locum. *)
Definition juneShiftsEdited : list RosterShift :=
  map (fun s => if decide (shift_id s = "2024-06-04-24h")
                then withAssigned s (Some Locum) else s) juneShifts.

(** * Properties of the roster generator *)

Arguments format_yyyy_MM_dd : simpl never.

Section GeneratorFacts.

Lemma fold_left_push {A B} (f : B → list A) (l : list B) (init : list A) :
  fold_left (fun acc i => acc ++ f i) l init = init ++ (l ≫= f).
Proof.
  revert init. induction l as [|x l IH]; intros init.
  - simpl. by rewrite app_nil_r.
  - rewrite bind_cons. simpl. rewrite IH. by rewrite <- app_assoc.
Qed.

Lemma generateRosterShifts_bind d weeks :
  generateRosterShifts d weeks = seqZ 0 (weeks * 7) ≫= shiftsOfDay (startOfWeek d 1).
Proof. unfold generateRosterShifts. by rewrite fold_left_push. Qed.

Lemma getDay_range d : 0 ≤ getDay d < 7.
Proof. unfold getDay. apply Z.mod_pos_bound. lia. Qed.

Lemma getDay_cases d :
  getDay d = 0 ∨ getDay d = 1 ∨ getDay d = 2 ∨ getDay d = 3 ∨
  getDay d = 4 ∨ getDay d = 5 ∨ getDay d = 6.
Proof. pose proof (getDay_range d). lia. Qed.

Lemma getDay_addDays m i : getDay (addDays m i) = (getDay m + i) mod 7.
Proof.
  unfold getDay, addDays; simpl.
  rewrite Zplus_mod_idemp_l. f_equal. lia.
Qed.

Lemma startOfWeek_monday d :
  startOfWeek d 1 = mkDate (dayNumber d - (getDay d + 6) mod 7) 0.
Proof.
  unfold startOfWeek. f_equal.
  destruct (getDay_cases d) as [H|[H|[H|[H|[H|[H|H]]]]]]; rewrite H; reflexivity.
Qed.

Lemma getDay_startOfWeek d : getDay (startOfWeek d 1) = 1.
Proof.
  rewrite startOfWeek_monday. unfold getDay; simpl.
  Z.div_mod_to_equations. lia.
Qed.

(** The Monday of the week of [d] is the one the generator snaps to. *)
Lemma startOfWeek_unique d m :
  getDay m = 1 → dayNumber m ≤ dayNumber d < dayNumber m + 7 →
  startOfWeek d 1 = mkDate (dayNumber m) 0.
Proof.
  intros Hm Hd. rewrite startOfWeek_monday. f_equal.
  unfold getDay in *. Z.div_mod_to_equations. lia.
Qed.

End GeneratorFacts.

(** Case analysis on the day of the week of day [i] of a roster. *)
Ltac by_day m i :=
  unfold shiftsOfDay, getAllowedStaff, getDefaultAssignment, format_EEE; cbv zeta;
  destruct (getDay_cases (addDays m i)) as [H|[H|[H|[H|[H|[H|H]]]]]];
  rewrite !H; simpl.

Section GeneratorShape.

Lemma shiftsOfDay_slots m i :
  slotOf <$> shiftsOfDay m i = daySlots (getDay (addDays m i)).
Proof. by_day m i; reflexivity. Qed.

Lemma elem_of_generate d weeks s :
  s ∈ generateRosterShifts d weeks ↔
  ∃ i, 0 ≤ i < weeks * 7 ∧ s ∈ shiftsOfDay (startOfWeek d 1) i.
Proof.
  rewrite generateRosterShifts_bind, list_elem_of_bind.
  split; intros (i & H1 & H2); exists i.
  - apply elem_of_seqZ in H2. split; [lia | done].
  - split; [done|]. apply elem_of_seqZ. lia.
Qed.

Lemma week_block m k :
  getDay m = 1 → slotOf <$> (seqZ (k * 7) 7 ≫= shiftsOfDay m) = weekSlots.
Proof.
  intros Hm.
  assert (Hday : ∀ j, 0 ≤ j < 7 →
            slotOf <$> shiftsOfDay m (j + k * 7) = daySlots ((1 + j) mod 7)).
  { intros j Hj. rewrite shiftsOfDay_slots, getDay_addDays, Hm. f_equal.
    Z.div_mod_to_equations. lia. }
  replace (seqZ (k * 7) 7) with
    ((fun j => j + k * 7) <$> [0; 1; 2; 3; 4; 5; 6]) by reflexivity.
  rewrite list_fmap_bind. unfold compose.
  rewrite !bind_cons, !fmap_app. cbn beta.
  rewrite !Hday by lia. reflexivity.
Qed.

Lemma generate_slots d (n : nat) :
  slotOf <$> generateRosterShifts d (Z.of_nat n) = concat (replicate n weekSlots).
Proof.
  rewrite generateRosterShifts_bind.
  induction n as [|n IH]; [reflexivity|].
  replace (Z.of_nat (S n) * 7) with (Z.of_nat n * 7 + 7) by lia.
  rewrite seqZ_app by lia. rewrite bind_app, fmap_app, IH.
  rewrite Z.add_0_l, week_block by apply getDay_startOfWeek.
  change (S n) with (1 + n)%nat. rewrite Nat.add_comm, replicate_add, concat_app.
  reflexivity.
Qed.

Lemma count_slots (q : string * ShiftType → bool) shifts :
  countShifts q shifts = Z.of_nat (length (List.filter q (slotOf <$> shifts))).
Proof.
  unfold countShifts. f_equal.
  induction shifts as [|s l IH]; [reflexivity|]; simpl.
  destruct (q (slotOf s)); simpl; by rewrite IH.
Qed.

Lemma filter_all {A} (l : list A) : List.filter (fun _ => true) l = l.
Proof. induction l as [|x l IH]; simpl; [done | by rewrite IH]. Qed.

Lemma count_replicate (q : string * ShiftType → bool) (n : nat) :
  Z.of_nat (length (List.filter q (concat (replicate n weekSlots)))) =
  Z.of_nat n * Z.of_nat (length (List.filter q weekSlots)).
Proof.
  induction n as [|n IH]; [reflexivity|].
  cbn [replicate concat]. rewrite List.filter_app, length_app. lia.
Qed.

Lemma generate_count d weeks (q : string * ShiftType → bool) :
  0 ≤ weeks →
  countShifts q (generateRosterShifts d weeks) =
  weeks * Z.of_nat (length (List.filter q weekSlots)).
Proof.
  intros Hw. rewrite count_slots.
  rewrite <- (Z2Nat.id weeks) at 1 by done.
  rewrite generate_slots, count_replicate. lia.
Qed.

End GeneratorShape.

(** C2: for every start date and every positive number of weeks the generated
    roster has [weeks * 9] shifts: [weeks * 5] full-day shifts on Monday to
    Friday (one per weekday of each week) and [weeks * 4] weekend shifts
    (one Day and one Night shift for each Saturday and each Sunday). *)
Theorem generate_shift_counts (d : Date) (weeks : Z) :
  0 < weeks →
  Z.of_nat (length (generateRosterShifts d weeks)) = weeks * 9 ∧
  countShifts isWeekdaySlot (generateRosterShifts d weeks) = weeks * 5 ∧
  countShifts isWeekendSlot (generateRosterShifts d weeks) = weeks * 4 ∧
  Forall (fun wd => countShifts (slotIs wd FullDay) (generateRosterShifts d weeks) = weeks)
    ["Mon"; "Tue"; "Wed"; "Thu"; "Fri"] ∧
  Forall (fun wd => countShifts (slotIs wd Day) (generateRosterShifts d weeks) = weeks ∧
                    countShifts (slotIs wd Night) (generateRosterShifts d weeks) = weeks)
    ["Sat"; "Sun"].
Proof.
  intros Hw.
  assert (Hq : ∀ q k, Z.of_nat (length (List.filter q weekSlots)) = k →
                 countShifts q (generateRosterShifts d weeks) = weeks * k).
  { intros q k <-. apply generate_count. lia. }
  split; [|split; [|split; [|split]]].
  - rewrite <- (Hq (fun _ => true) 9) by reflexivity.
    unfold countShifts. by rewrite filter_all.
  - by apply Hq.
  - by apply Hq.
  - repeat constructor; rewrite <- (Z.mul_1_r weeks) at 2; by apply Hq.
  - repeat constructor; rewrite <- (Z.mul_1_r weeks) at 2; by apply Hq.
Qed.

Lemma generate_shift_counts_witness :
  0 < 2 ∧
  Z.of_nat (length (generateRosterShifts (localDate 2024 6 5) 2)) = 2 * 9 ∧
  countShifts isWeekdaySlot (generateRosterShifts (localDate 2024 6 5) 2) = 2 * 5 ∧
  countShifts isWeekendSlot (generateRosterShifts (localDate 2024 6 5) 2) = 2 * 4.
Proof.
  split; [lia|].
  pose proof (generate_shift_counts (localDate 2024 6 5) 2) as H.
  destruct H as (H1 & H2 & H3 & _); [lia|]. auto.
Defined.

Section GeneratedShifts.

Lemma shiftsOfDay_assigned m i :
  Forall (fun s => is_Some (assigned s)) (shiftsOfDay m i).
Proof. by_day m i; repeat constructor; simpl; repeat case_match; eauto. Qed.

Lemma shiftsOfDay_saturday_day m i :
  Forall (fun s => shift_weekday s = "Sat" → shiftType s = Day →
                   allowedStaff s = [Joflix] ∧ assigned s = Some Joflix)
    (shiftsOfDay m i).
Proof.
  by_day m i; repeat (apply Forall_cons_2 || apply Forall_nil_2); simpl;
    intros; (done || congruence).
Qed.

Lemma generate_Forall (P : RosterShift → Prop) d weeks :
  (∀ m i, Forall P (shiftsOfDay m i)) → Forall P (generateRosterShifts d weeks).
Proof.
  intros HP. apply Forall_forall. intros s Hs.
  apply elem_of_generate in Hs as (i & _ & Hs).
  eapply Forall_forall in Hs; [exact Hs | apply HP].
Qed.

Lemma shiftsOfDay_eligible m i : Forall assigneeEligible (shiftsOfDay m i).
Proof.
  by_day m i; repeat (apply Forall_cons_2 || apply Forall_nil_2);
    intros staff; simpl; repeat case_match; intros [= <-]; repeat constructor.
Qed.

(** The generator establishes the invariant of the data model. *)
Lemma generated_assignee_eligible d weeks :
  Forall assigneeEligible (generateRosterShifts d weeks).
Proof. apply generate_Forall, shiftsOfDay_eligible. Qed.

Lemma resolver_total date weekIndex :
  if (getDay date =? 6) || (getDay date =? 0)
  then is_Some (getDefaultAssignment date Day weekIndex) ∧
       is_Some (getDefaultAssignment date Night weekIndex)
  else is_Some (getDefaultAssignment date FullDay weekIndex).
Proof.
  unfold getDefaultAssignment.
  destruct (getDay_cases date) as [H|[H|[H|[H|[H|[H|H]]]]]]; rewrite !H; simpl;
    repeat case_match; eauto.
Qed.

End GeneratedShifts.

(** C3: the roster generated for one week from 2024-06-03 (a Monday) is
    exactly these nine shifts, in this order: Mon to Fri 24h with Ashley,
    Peninah, Joflix, Joflix, Peninah; Sat Day 12h Joflix, Sat Night 12h
    Ashley; Sun Day 12h Ashley, Sun Night 12h Peninah. *)
Theorem generate_2024_06_03_one_week :
  getDay (localDate 2024 6 3) = 1 ∧
  generateRosterShifts (localDate 2024 6 3) 1 =
  [ mkShift "2024-06-03-24h" "2024-06-03" "Mon" FullDay "24h" 24 (Some Ashley)
      [Ashley; Peninah; Joflix; Locum];
    mkShift "2024-06-04-24h" "2024-06-04" "Tue" FullDay "24h" 24 (Some Peninah)
      [Ashley; Peninah; Joflix; Locum];
    mkShift "2024-06-05-24h" "2024-06-05" "Wed" FullDay "24h" 24 (Some Joflix)
      [Ashley; Peninah; Joflix; Locum];
    mkShift "2024-06-06-24h" "2024-06-06" "Thu" FullDay "24h" 24 (Some Joflix)
      [Ashley; Peninah; Joflix; Locum];
    mkShift "2024-06-07-24h" "2024-06-07" "Fri" FullDay "24h" 24 (Some Peninah)
      [Ashley; Peninah; Joflix; Locum];
    mkShift "2024-06-08-day" "2024-06-08" "Sat" Day "Day 12h" 12 (Some Joflix)
      [Joflix];
    mkShift "2024-06-08-night" "2024-06-08" "Sat" Night "Night 12h" 12 (Some Ashley)
      [Ashley; Peninah; Locum];
    mkShift "2024-06-09-day" "2024-06-09" "Sun" Day "Day 12h" 12 (Some Ashley)
      [Ashley; Peninah; Locum];
    mkShift "2024-06-09-night" "2024-06-09" "Sun" Night "Night 12h" 12 (Some Peninah)
      [Ashley; Peninah; Locum] ].
Proof. split; vm_compute; reflexivity. Qed.

(** C5: for every start date and number of weeks, every generated shift on
    a Saturday of category Day has the eligibility list [[Joflix]] and the
    default assignee Joflix. *)
Theorem saturday_day_locked (d : Date) (weeks : Z) (s : RosterShift) :
  s ∈ generateRosterShifts d weeks →
  shift_weekday s = "Sat" → shiftType s = Day →
  allowedStaff s = [Joflix] ∧ assigned s = Some Joflix.
Proof.
  intros Hs.
  pose proof (generate_Forall _ d weeks shiftsOfDay_saturday_day) as H.
  rewrite Forall_forall in H. by apply H.
Qed.

Lemma saturday_day_locked_witness :
  let s := mkShift "2024-06-08-day" "2024-06-08" "Sat" Day "Day 12h" 12 (Some Joflix) [Joflix] in
  s ∈ generateRosterShifts (localDate 2024 6 6) 1 ∧
  allowedStaff s = [Joflix] ∧ assigned s = Some Joflix.
Proof.
  intros s.
  assert (Hs : s ∈ generateRosterShifts (localDate 2024 6 6) 1).
  { apply list_elem_of_In. vm_compute. tauto. }
  split; [exact Hs|].
  apply (saturday_day_locked (localDate 2024 6 6) 1 s Hs); reflexivity.
Defined.

(** C9: every shift of a generated roster has an assignee, and the
    default-assignment resolver returns a staff member for each (weekday,
    category) pair the generator queries: Day and Night at weekends,
    full-day otherwise. *)
Theorem generated_shifts_assigned (d : Date) (weeks : Z) :
  Forall (fun s => is_Some (assigned s)) (generateRosterShifts d weeks) ∧
  (∀ date weekIndex,
     if (getDay date =? 6) || (getDay date =? 0)
     then is_Some (getDefaultAssignment date Day weekIndex) ∧
          is_Some (getDefaultAssignment date Night weekIndex)
     else is_Some (getDefaultAssignment date FullDay weekIndex)).
Proof.
  split; [apply generate_Forall, shiftsOfDay_assigned | apply resolver_total].
Qed.

(** C8: if [m] is the Monday of the week that contains [d], generating from
    [d] gives the same roster as generating from [m], whatever the time of
    day of either, and for a positive number of weeks the first shift is
    the one of that Monday. *)
Theorem generate_snaps_to_monday (d m : Date) (weeks : Z) :
  getDay m = 1 → dayNumber m ≤ dayNumber d < dayNumber m + 7 →
  generateRosterShifts d weeks = generateRosterShifts m weeks ∧
  (0 < weeks → ∃ first rest,
     generateRosterShifts d weeks = first :: rest ∧
     shift_weekday first = "Mon" ∧ shift_date first = format_yyyy_MM_dd m).
Proof.
  intros Hm Hd.
  assert (Hsnap : startOfWeek d 1 = mkDate (dayNumber m) 0)
    by (by apply startOfWeek_unique).
  split.
  - rewrite !generateRosterShifts_bind, Hsnap.
    rewrite (startOfWeek_unique m m) by (done || lia). done.
  - intros Hw. rewrite generateRosterShifts_bind, Hsnap.
    rewrite seqZ_cons by lia. rewrite bind_cons.
    assert (Hday : getDay (addDays (mkDate (dayNumber m) 0) 0) = 1).
    { rewrite getDay_addDays. unfold getDay in *; simpl.
      Z.div_mod_to_equations. lia. }
    unfold shiftsOfDay at 1. cbv zeta. unfold format_EEE. rewrite !Hday. simpl.
    eexists _, _. split; [reflexivity|]. split; [reflexivity|]. simpl.
    unfold format_yyyy_MM_dd, addDays. simpl. by rewrite Z.add_0_r.
Qed.

Lemma generate_snaps_to_monday_witness :
  let d := mkDate (days_from_civil 2024 6 6) 52200000 in
  let m := localDate 2024 6 3 in
  getDay m = 1 ∧ dayNumber m ≤ dayNumber d < dayNumber m + 7 ∧
  generateRosterShifts d 2 = generateRosterShifts m 2.
Proof.
  intros d m.
  assert (H1 : getDay m = 1) by reflexivity.
  assert (H2 : dayNumber m ≤ dayNumber d < dayNumber m + 7) by (vm_compute; split; congruence).
  split; [exact H1|]. split; [exact H2|].
  exact (proj1 (generate_snaps_to_monday d m 2 H1 H2)).
Defined.

(** * Properties of the hours aggregator *)

Section Aggregator.

Lemma initialHoursMap_complete : complete initialHoursMap.
Proof. intros []; vm_compute; eauto. Qed.

Lemma initialHoursMap_total : mapTotal initialHoursMap = 0.
Proof. reflexivity. Qed.

Lemma tallyShift_step hoursMap shift :
  complete hoursMap →
  ∃ hoursMap', tallyShift hoursMap shift = Some hoursMap' ∧ complete hoursMap' ∧
               mapTotal hoursMap' = mapTotal hoursMap + contribution shift.
Proof.
  intros Hc. unfold tallyShift, contribution.
  destruct (assigned shift) as [staff|].
  - destruct (Hc staff) as [current Hcur]. rewrite Hcur. simpl.
    eexists. split; [reflexivity|]. split.
    + intros n. destruct (decide (staff = n)) as [->|Hne].
      * rewrite lookup_insert_eq. eauto.
      * rewrite lookup_insert_ne by done. apply Hc.
    + unfold mapTotal, STAFF_MEMBERS. simpl.
      destruct staff;
        rewrite lookup_insert_eq, !lookup_insert_ne by done;
        rewrite Hcur; simpl; lia.
  - exists hoursMap. split; [done|]. split; [done|]. lia.
Qed.

Lemma assignedHours_cons shift shifts :
  assignedHours (shift :: shifts) = contribution shift + assignedHours shifts.
Proof.
  unfold assignedHours, contribution. rewrite filter_cons.
  destruct (assigned shift); case_decide as H; simpl; try lia.
  - exfalso. apply H. eauto.
  - by destruct H.
Qed.

Lemma tallyShifts_total shifts hoursMap :
  complete hoursMap →
  ∃ hoursMap', tallyShifts shifts hoursMap = Some hoursMap' ∧ complete hoursMap' ∧
               mapTotal hoursMap' = mapTotal hoursMap + assignedHours shifts.
Proof.
  revert hoursMap. induction shifts as [|shift shifts IH]; intros hoursMap Hc.
  - exists hoursMap. split; [done|]. split; [done|]. unfold assignedHours; simpl; lia.
  - destruct (tallyShift_step hoursMap shift Hc) as (m1 & Hstep & Hc1 & Ht1).
    destruct (IH m1 Hc1) as (m2 & Hrest & Hc2 & Ht2).
    exists m2. split; [|split; [done|]].
    + unfold tallyShifts in *. simpl. by rewrite Hstep.
    + rewrite assignedHours_cons. lia.
Qed.

Lemma tallyShifts_unassigned shifts hoursMap :
  tallyShifts (filter (fun s => is_Some (assigned s)) shifts) hoursMap =
  tallyShifts shifts hoursMap.
Proof.
  unfold tallyShifts. generalize (Some hoursMap) as acc.
  induction shifts as [|shift shifts IH]; intros acc; [done|].
  rewrite filter_cons. case_decide as H; simpl; [apply IH|].
  rewrite IH. f_equal. destruct acc as [m|]; [|done]. simpl.
  unfold tallyShift. destruct (assigned shift); [|done].
  exfalso. apply H. eauto.
Qed.

Lemma summaries_total hoursMap :
  complete hoursMap →
  ∃ summary, mapM (summaryOf hoursMap) STAFF_MEMBERS = Some summary ∧
             name <$> summary = STAFF_MEMBERS ∧
             sumTotalHours summary = mapTotal hoursMap.
Proof.
  intros Hc. unfold STAFF_MEMBERS, summaryOf, mapTotal, sumTotalHours.
  destruct (Hc Ashley) as [a Ha], (Hc Peninah) as [p Hp],
           (Hc Joflix) as [j Hj], (Hc Locum) as [l Hl].
  simpl. rewrite Ha, Hp, Hj, Hl. simpl. eexists. split; [reflexivity|]. done.
Qed.

End Aggregator.

(** C6: for every list of shifts, [calculateStaffHours] returns one record
    per staff member, and the sum of their [totalHours] is the sum of
    [hours] over the shifts that have an assignee; the shifts without an
    assignee add nothing: dropping them gives the same summary. *)
Theorem staff_hours_total (shifts : list RosterShift) :
  ∃ summary,
    calculateStaffHours shifts = Some summary ∧
    name <$> summary = STAFF_MEMBERS ∧
    sumTotalHours summary = assignedHours shifts ∧
    calculateStaffHours (filter (fun s => is_Some (assigned s)) shifts) = Some summary.
Proof.
  destruct (tallyShifts_total shifts initialHoursMap initialHoursMap_complete)
    as (hoursMap & Htally & Hc & Htotal).
  destruct (summaries_total hoursMap Hc) as (summary & Hsum & Hnames & Hs).
  exists summary. unfold calculateStaffHours.
  rewrite tallyShifts_unassigned, Htally. simpl.
  repeat split; try done.
  rewrite Hs, Htotal, initialHoursMap_total. lia.
Qed.
Example staff_hours_june :
  calculateStaffHours juneShifts =
  Some [ mkSummary Ashley 48 3; mkSummary Peninah 60 3;
         mkSummary Joflix 60 3; mkSummary Locum 0 0 ].
Proof. vm_compute. reflexivity. Qed.

(** * Properties of the roster differ *)

Section DifferFacts.
Variable localeCompare : string → string → Z.

Lemma sort_insert_elem x y l : x ∈ sort_insert localeCompare y l → x = y ∨ x ∈ l.
Proof.
  induction l as [|z l IH]; simpl.
  - rewrite list_elem_of_singleton. tauto.
  - case_match; rewrite !elem_of_cons; [tauto|].
    intros [->|Hx]; [tauto|]. destruct (IH Hx); tauto.
Qed.

Lemma sort_elem x l : x ∈ sort localeCompare l → x ∈ l.
Proof.
  induction l as [|y l IH]; simpl; [done|].
  intros H. apply sort_insert_elem in H. rewrite elem_of_cons. tauto.
Qed.

Lemma diffOfKey_same m key :
  Forall (fun d => isDifferent d = false ∧ leftAssigned d = rightAssigned d)
    (diffOfKey m m key).
Proof.
  unfold diffOfKey. destruct (map_get m key) as [s|]; simpl; [|constructor].
  repeat constructor. simpl. by rewrite bool_decide_eq_true_2.
Qed.

Lemma diffs_same_Forall shifts :
  Forall (fun d => isDifferent d = false ∧ leftAssigned d = rightAssigned d)
    (diffs localeCompare shifts shifts).
Proof.
  apply Forall_forall. intros d Hd. unfold diffs in Hd.
  apply sort_elem in Hd. rewrite fold_left_push in Hd. simpl in Hd.
  apply list_elem_of_bind in Hd as (key & Hd & _).
  eapply Forall_forall in Hd; [exact Hd | apply diffOfKey_same].
Qed.

End DifferFacts.

(** C7: comparing a list of shifts with itself gives no entry whose
    [isDifferent] flag is set ([changedCount] is 0): in every entry the two
    assignees are equal.  This holds for any collation used by the sort. *)
Theorem diff_self_unchanged (localeCompare : string → string → Z) (shifts : list RosterShift) :
  changedCount (diffs localeCompare shifts shifts) = 0%nat ∧
  Forall (fun d => isDifferent d = false ∧ leftAssigned d = rightAssigned d)
    (diffs localeCompare shifts shifts).
Proof.
  split; [|apply diffs_same_Forall].
  unfold changedCount.
  pose proof (diffs_same_Forall localeCompare shifts) as H.
  induction H as [|d l [Hd _] _ IH]; [done|].
  rewrite filter_cons. case_decide; [congruence | exact IH].
Qed.
Example diffs_june_edited :
  map (fun d => (diff_shiftId d, isDifferent d))
    (diffs codeUnitCompare juneShifts juneShiftsEdited) =
  [ ("2024-06-03-24h", false); ("2024-06-04-24h", true); ("2024-06-05-24h", false);
    ("2024-06-06-24h", false); ("2024-06-07-24h", false); ("2024-06-08-day", false);
    ("2024-06-08-night", false); ("2024-06-09-day", false); ("2024-06-09-night", false) ].
Proof. vm_compute. reflexivity. Qed.

(** * Properties of the storage operations *)

Section MemStorageFacts.
Import MemStorage.

Lemma list_find_insert_found (shiftId : string) (l : list RosterShift) i x y :
  list_find (fun s => shift_id s = shiftId) l = Some (i, x) →
  shift_id y = shiftId →
  list_find (fun s => shift_id s = shiftId) (<[i:=y]> l) = Some (i, y).
Proof.
  intros Hfind Hy. apply list_find_Some in Hfind as (Hi & Hx & Hleast).
  apply list_find_insert_Some. right; left.
  split_and!; eauto using lookup_lt_Some.
Qed.

Lemma list_find_insert_other (other : string) (l : list RosterShift) i x y :
  l !! i = Some x → shift_id x ≠ other → shift_id y ≠ other →
  snd <$> list_find (fun s => shift_id s = other) (<[i:=y]> l) =
  snd <$> list_find (fun s => shift_id s = other) l.
Proof.
  revert i. induction l as [|z l IH]; intros i Hi Hx Hy; [done|].
  destruct i as [|i]; simpl in *.
  - inversion Hi; subst z. by rewrite !decide_False by done.
  - case_decide; [done|]. rewrite <- !option_fmap_compose.
    specialize (IH i Hi Hx Hy).
    destruct (list_find _ (<[i:=y]> l)) as [[? ?]|], (list_find _ l) as [[? ?]|];
      simpl in *; congruence.
Qed.

Lemma withAssigned_id shift a : shift_id (withAssigned shift a) = shift_id shift.
Proof. reflexivity. Qed.

(** The effect of a store of [withAssigned shift a] into the roster. *)
Lemma mem_store this roster shiftId i shift a :
  this = Some roster →
  list_find (fun s => shift_id s = shiftId) (shifts roster) = Some (i, shift) →
  let this' := Some (mkRoster (roster_id roster) (startDate roster) (weeks roster)
                       (<[i := withAssigned shift a]> (shifts roster))) in
  getShift this' shiftId = Some (withAssigned shift a) ∧
  ∀ other, other ≠ shiftId → getShift this' other = getShift this other.
Proof.
  intros -> Hfind this'. pose proof Hfind as Hf.
  apply list_find_Some in Hf as (Hi & Hid & _).
  split.
  - unfold this', getShift; simpl.
    by rewrite (list_find_insert_found shiftId _ i shift).
  - intros other Hne. unfold this', getShift; simpl.
    apply (list_find_insert_other other _ i shift); [done|congruence|].
    rewrite withAssigned_id. congruence.
Qed.

Lemma getShift_Some this shiftId shift :
  getShift this shiftId = Some shift →
  ∃ roster i, this = Some roster ∧
    list_find (fun s => shift_id s = shiftId) (shifts roster) = Some (i, shift).
Proof.
  unfold getShift. destruct this as [roster|]; simpl; [|done].
  destruct (list_find _ _) as [[i s]|] eqn:Hfind; simpl; [|done].
  intros [= ->]. eauto.
Qed.

Lemma mem_validates : validates_assignment getShift updateShift.
Proof.
  intros this shiftId shift staff Hget.
  destruct (getShift_Some _ _ _ Hget) as (roster & i & -> & Hfind).
  destruct (mem_store _ roster shiftId i shift (Some staff) eq_refl Hfind)
    as [Hnew Hframe].
  unfold updateShift, includes. rewrite Hfind.
  destruct (decide (staff ∈ allowedStaff shift)) as [Hin|Hout].
  - rewrite bool_decide_eq_true_2 by done. simpl.
    split_and!; [split; [intros [? [=]] | done] | done | eauto].
  - rewrite bool_decide_eq_false_2 by done. simpl.
    split_and!; [split; eauto | done | done].
Qed.

Lemma mem_unassign : allows_unassignment getShift updateShift.
Proof.
  intros this shiftId shift Hget.
  destruct (getShift_Some _ _ _ Hget) as (roster & i & -> & Hfind).
  destruct (mem_store _ roster shiftId i shift None eq_refl Hfind) as [Hnew Hframe].
  unfold updateShift. rewrite Hfind. eauto.
Qed.
End MemStorageFacts.

Section DatabaseStorageFacts.
Import DatabaseStorage.

Lemma storedShift_Some db id shift :
  storedShift db id = Some shift →
  ∃ row, shifts db !! id = Some row ∧ shift = dbShiftToRosterShift id row.
Proof.
  unfold storedShift. destruct (shifts db !! id) as [row|]; simpl; [|done].
  intros [= <-]. eauto.
Qed.

(** The effect of [update(shifts).set({ assigned }).where(eq(shifts.id, id))]. *)
Lemma db_store (table : gmap string DbShift) id row a :
  table !! id = Some row →
  alter (setAssigned a) id table !! id = Some (setAssigned a row) ∧
  ∀ other, other ≠ id → alter (setAssigned a) id table !! other = table !! other.
Proof.
  intros Hrow. split.
  - by rewrite lookup_alter_eq, Hrow.
  - intros other Hne. by rewrite lookup_alter_ne.
Qed.

Lemma db_validates now :
  validates_assignment storedShift (fun db => updateShift db now).
Proof.
  intros db id shift staff Hget.
  destruct (storedShift_Some _ _ _ Hget) as (row & Hrow & ->).
  destruct (db_store _ id row (Some staff) Hrow) as [Hnew Hframe].
  unfold updateShift, includes, storedShift. rewrite Hrow. simpl.
  destruct (decide (staff ∈ db_allowedStaff row)) as [Hin|Hout].
  - rewrite bool_decide_eq_true_2 by done. simpl. rewrite Hnew. simpl.
    split_and!; [split; [intros [? [=]] | done] | done |].
    intros _. eexists. split; [reflexivity|]. simpl. rewrite Hnew. split; [done|].
    intros other Hne. by rewrite Hframe.
  - rewrite bool_decide_eq_false_2 by done. simpl.
    split_and!; [split; eauto | done | done].
Qed.

Lemma db_unassign now :
  allows_unassignment storedShift (fun db => updateShift db now).
Proof.
  intros db id shift Hget.
  destruct (storedShift_Some _ _ _ Hget) as (row & Hrow & ->).
  destruct (db_store _ id row None Hrow) as [Hnew Hframe].
  unfold updateShift, storedShift. rewrite Hrow. simpl. rewrite Hnew.
  eexists. split; [reflexivity|]. simpl. rewrite Hnew. split; [done|].
  intros other Hne. by rewrite Hframe.
Qed.
End DatabaseStorageFacts.

Section SwapFacts.
Import DatabaseStorage.

(** Approving a request stores [toStaff] on the shift, whoever that is. *)
Lemma respond_approved_assigns db now requestId request row :
  swapRequests db !! requestId = Some request →
  shifts db !! shiftId request = Some row →
  storedShift (respondToSwapRequest db now requestId respond_approved).1 (shiftId request)
  = Some (withAssigned (dbShiftToRosterShift (shiftId request) row) (Some (toStaff request))).
Proof.
  intros Hreq Hrow. unfold respondToSwapRequest, storedShift. rewrite Hreq. simpl.
  by rewrite lookup_alter_eq, Hrow.
Qed.
End SwapFacts.

(** C4: in both storages, for a stored shift and a proposed staff member,
    [updateShift] throws the "not allowed" error exactly when the member is
    not in the shift's [allowedStaff], and then the storage is unchanged;
    when the member is in the list the call returns the shift with that
    assignee, the stored shift is that shift (its other fields unchanged)
    and the other shifts are as before.  The message of the error contains
    "not allowed", which is what the route tests for. *)
Theorem updateShift_validates_eligibility :
  validates_assignment MemStorage.getShift MemStorage.updateShift ∧
  (∀ now, validates_assignment DatabaseStorage.storedShift
            (fun db => DatabaseStorage.updateShift db now)) ∧
  (∀ staff, str_includes (notAllowedMessage staff) "not allowed" = true).
Proof.
  split; [apply mem_validates|]. split; [apply db_validates|].
  intros []; reflexivity.
Qed.

Lemma updateShift_validates_eligibility_witness :
  MemStorage.getShift juneRoster "2024-06-08-night" = Some saturdayNight ∧
  MemStorage.updateShift juneRoster "2024-06-08-night" (Some Joflix) =
    (juneRoster, Thrown "Staff member Joflix is not allowed for this shift") ∧
  (MemStorage.updateShift juneRoster "2024-06-08-night" (Some Peninah)).2 =
    Returned (Some (withAssigned saturdayNight (Some Peninah))).
Proof.
  assert (Hget : MemStorage.getShift juneRoster "2024-06-08-night" = Some saturdayNight)
    by (vm_compute; reflexivity).
  destruct (proj1 updateShift_validates_eligibility juneRoster _ _ Joflix Hget)
    as (_ & Hrej & _).
  destruct (proj1 updateShift_validates_eligibility juneRoster _ _ Peninah Hget)
    as (_ & _ & Hacc).
  split; [exact Hget|]. split.
  - apply Hrej. simpl. intros H.
    repeat (apply elem_of_cons in H as [H|H]; [discriminate H|]).
    by apply elem_of_nil in H.
  - destruct Hacc as (st' & Heq & _).
    + simpl. repeat constructor.
    + rewrite Heq. reflexivity.
Defined.

(** C10: in both storages, [updateShift] with a null assignee on a stored
    shift never throws: it returns the shift with no assignee and stores
    it, whatever the shift's [allowedStaff] is, so also for a locked shift
    with a single eligible member. *)
Theorem updateShift_unassign_always_succeeds :
  allows_unassignment MemStorage.getShift MemStorage.updateShift ∧
  (∀ now, allows_unassignment DatabaseStorage.storedShift
            (fun db => DatabaseStorage.updateShift db now)).
Proof. split; [apply mem_unassign | apply db_unassign]. Qed.

Lemma updateShift_unassign_always_succeeds_witness :
  MemStorage.getShift juneRoster "2024-06-08-day" = Some saturdayDay ∧
  allowedStaff saturdayDay = [Joflix] ∧
  (MemStorage.updateShift juneRoster "2024-06-08-day" None).2 =
    Returned (Some (withAssigned saturdayDay None)) ∧
  (DatabaseStorage.updateShift juneDatabase 20 "2024-06-08-day" None).2 =
    Returned (Some (withAssigned saturdayDay None)).
Proof.
  assert (Hmem : MemStorage.getShift juneRoster "2024-06-08-day" = Some saturdayDay)
    by (vm_compute; reflexivity).
  assert (Hdb : DatabaseStorage.storedShift juneDatabase "2024-06-08-day" = Some saturdayDay)
    by (vm_compute; reflexivity).
  destruct (proj1 updateShift_unassign_always_succeeds juneRoster _ _ Hmem)
    as (st1 & Heq1 & _).
  destruct (proj2 updateShift_unassign_always_succeeds 20 juneDatabase _ _ Hdb)
    as (st2 & Heq2 & _).
  split; [exact Hmem|]. split; [reflexivity|].
  split; [rewrite Heq1 | rewrite Heq2]; reflexivity.
Defined.

(** C1 (what the code does at the failing input): the Saturday Day shift of
    the saved roster is locked to Joflix and satisfies the invariant; a swap
    request from Joflix to Ashley is created and approved, both calls
    return, and the stored shift is then assigned to Ashley, who is not in
    its [allowedStaff]; [updateShift] refuses the same assignment. *)
Theorem swap_approval_skips_validation :
  let id := "2024-06-08-day" in
  let db1 := (DatabaseStorage.createSwapRequest juneDatabase "request-1" 10 id Joflix Ashley None).1 in
  let db2 := (DatabaseStorage.respondToSwapRequest db1 20 "request-1"
                DatabaseStorage.respond_approved).1 in
  DatabaseStorage.storedShift juneDatabase id = Some saturdayDay ∧
  assigneeEligible saturdayDay ∧
  match (DatabaseStorage.respondToSwapRequest db1 20 "request-1"
           DatabaseStorage.respond_approved).2 with
  | Returned (Some details) =>
      DatabaseStorage.swap_status details = DatabaseStorage.approved
  | _ => False
  end ∧
  DatabaseStorage.storedShift db2 id = Some (withAssigned saturdayDay (Some Ashley)) ∧
  ¬ assigneeEligible (withAssigned saturdayDay (Some Ashley)) ∧
  DatabaseStorage.updateShift juneDatabase 20 id (Some Ashley) =
    (juneDatabase, Thrown "Staff member Ashley is not allowed for this shift").
Proof.
  intros id db1 db2.
  split; [by vm_compute|]. split.
  { intros staff [= <-]. simpl. apply list_elem_of_here. }
  split; [by vm_compute|]. split; [by vm_compute|]. split.
  { intros H. specialize (H Ashley eq_refl). simpl in H.
    apply list_elem_of_singleton in H. discriminate. }
  unfold DatabaseStorage.updateShift.
  replace (DatabaseStorage.shifts juneDatabase !! id)
    with (Some (shiftRow "roster-1" saturdayDay)) by (by vm_compute).
  reflexivity.
Qed.
